(** * express-auth: the token authenticator and the User serialization

    A shallow embedding of [config/auth.js] (the shared secret, the
    passport-jwt strategy, [createUserToken]) and of the [toJSON] transform
    of [models/user.js], with the properties the specification states about
    them.

    The npm packages the module calls (bcrypt, jsonwebtoken, passport-jwt,
    mongoose) are not part of the repository.  Their pure cores (the bcrypt
    check, the HS256 MAC, mongoose's ObjectId cast) and [process.env] are
    variables of the section [Auth]; the control flow around them is written
    out after the packages' documented behaviour. *)

From Stdlib Require Import ZArith Lia.
From stdpp Require Import gmap strings list fin_maps.

Local Open Scope Z_scope.
Local Open Scope string_scope.

(** ** JavaScript values *)

(** The scalar JSON values a request body, a token payload or a serialized
    document can hold. *)
Inductive jsval : Type :=
  | JUndefined
  | JNull
  | JBool (b : bool)
  | JNum (n : Z)
  | JStr (s : string).

(** JavaScript truthiness: [undefined], [null], [false], [0] and the empty
    string are falsy. *)
Definition truthy (v : jsval) : bool :=
  match v with
  | JUndefined | JNull => false
  | JBool b => b
  | JNum n => negb (Z.eqb n 0)
  | JStr s => negb (String.eqb s "")
  end.

(** Property read [o.k] on a plain object: [undefined] when [k] is absent. *)
Definition prop (o : gmap string jsval) (k : string) : jsval :=
  default JUndefined (o !! k).

(** ** Errors, users, requests, tokens *)

Record Error : Type := mkError {
  err_name : string;
  message : string;
  statusCode : jsval
}.

(** [new Error(msg)] *)
Definition new_Error (msg : string) : Error :=
  {| err_name := "Error"; message := msg; statusCode := JUndefined |}.

(** [err.statusCode = v] *)
Definition set_statusCode (v : jsval) (err : Error) : Error :=
  {| err_name := err_name err; message := message err; statusCode := v |}.

(** Reading a property of [undefined] or [null]. *)
Definition TypeError (reading : string) : Error :=
  {| err_name := "TypeError";
     message := "Cannot read properties of undefined (reading '" ++ reading ++ "')";
     statusCode := JUndefined |}.

(** A document of the [User] model: the three schema fields, the [_id]
    mongoose adds, and the two [timestamps]. *)
Record User : Type := mkUser {
  _id : string;
  email : string;
  password : string;
  token : option string;
  createdAt : Z;
  updatedAt : Z
}.

(** A signed token that decodes: the claims and the signature part, the
    latter as its base64url text, empty when the token has no signature.
    (On the wire the two are base64url-encoded behind a constant HS256
    header.) *)
Record Token : Type := mkToken {
  claims : gmap string jsval;
  signature : string
}.

(** The parts of an Express request the module reads: [req.body.credentials]
    and the bearer token of the [Authorization] header. *)
Record Body : Type := mkBody {
  credentials : option (gmap string jsval)
}.

Record Request : Type := mkRequest {
  body : option Body;
  authorization : option Token
}.

(** ** The world: store, clock, and the log of library calls *)

Inductive Event : Type :=
  | CompareSync (data : jsval) (hash : string)
  | Sign (payload : gmap string jsval) (key : string) (expiresIn : Z)
  | Verify (t : Token) (key : string)
  | FindById (id : jsval).

Record World : Type := mkWorld {
  users : gmap string User;      (* the users collection, by _id *)
  storeFault : option Error;     (* the store cannot answer (connection lost) *)
  now : Z;                       (* Date.now(), in milliseconds *)
  calls : list Event             (* library calls made so far *)
}.

Definition log (ev : Event) (w : World) : World :=
  {| users := users w; storeFault := storeFault w; now := now w;
     calls := (calls w ++ [ev])%list |}.

(** ** Computations that read the world and may throw *)

Inductive Result (A : Type) : Type :=
  | Ok (a : A)
  | Throw (e : Error).
Arguments Ok {A} a.
Arguments Throw {A} e.

Definition M (A : Type) : Type := World -> Result A * World.

#[global] Instance M_ret : MRet M := fun A a w => (Ok a, w).

#[global] Instance M_bind : MBind M := fun A B k m w =>
  match m w with
  | (Ok a, w') => k a w'
  | (Throw e, w') => (Throw e, w')
  end.

Definition throw {A : Type} (e : Error) : M A := fun w => (Throw e, w).

(** [try { m } catch (e) { ... }]: the error becomes a value. *)
Definition try {A : Type} (m : M A) : M (Error + A) := fun w =>
  match m w with
  | (Ok a, w') => (Ok (inr a), w')
  | (Throw e, w') => (Ok (inl e), w')
  end.

Definition emit (ev : Event) : M unit := fun w => (Ok tt, log ev w).

(** Reading the world leaves it as it is. *)
Definition the_world : M World := fun w => (Ok w, w).

Definition Date_now : M Z := w ← the_world; mret (now w).

(** [a || b] on conditions, with JavaScript's short circuit. *)
Definition orM (a b : M bool) : M bool :=
  x ← a; if x : bool then mret true else b.

Infix "|||" := orM (at level 50, left associativity).

(** A settled promise. *)
Inductive Promise (A : Type) : Type :=
  | Resolved (a : A)
  | Rejected (err : Error).
Arguments Resolved {A} a.
Arguments Rejected {A} err.

(** What passport does with a strategy's verdict. *)
Inductive Outcome : Type :=
  | Success (user : User)
  | Fail (info : option Error)
  | Errored (err : Error).

Inductive Response : Type :=
  | Next (user : User)           (* req.user = user; next() *)
  | Unauthorized                 (* status 401 *)
  | NextError (err : Error).     (* next(err) *)

(** ** A small concrete instance, for the closed examples *)

Module Demo.

(** A stand-in for the bcrypt check: the hash is a prefix and the password. *)
Definition compare (data hash : string) : bool :=
  String.eqb hash ("$2b$10$" ++ data).

(** A stand-in for the MAC: the key and the subject. *)
Definition mac (key : string) (payload : gmap string jsval) : string :=
  match payload !! "id" with
  | Some (JStr s) => key ++ "/" ++ s
  | _ => key
  end.

(** ObjectIds are written as 24 characters. *)
Definition cast (v : jsval) : option string :=
  match v with
  | JStr s => if Nat.eqb (String.length s) 24 then Some s else None
  | _ => None
  end.

Definition env : gmap string string := ∅.

Definition alice : User :=
  {| _id := "64b7f0c2a1d3e4f5a6b7c8d9"; email := "a@x.com";
     password := "$2b$10$secret1"; token := None;
     createdAt := 1000; updatedAt := 1000 |}.

(** A user whose stored hash matches the empty password. *)
Definition blank : User :=
  {| _id := "64b7f0c2a1d3e4f5a6b7c8da"; email := "b@x.com";
     password := "$2b$10$"; token := None;
     createdAt := 2000; updatedAt := 2000 |}.

Definition store : gmap string User :=
  <[_id alice := alice]> (<[_id blank := blank]> ∅).

Definition world (t : Z) : World :=
  {| users := store; storeFault := None; now := t; calls := [] |}.

(** The same instant, after [alice] was removed. *)
Definition world_without_alice (t : Z) : World :=
  {| users := delete (_id alice) store; storeFault := None; now := t;
     calls := [] |}.

Definition signin (e p : jsval) : Request :=
  {| body := Some {| credentials :=
                       Some (<["email" := e]> (<["password" := p]> ∅)) |};
     authorization := None |}.

Definition bearer (t : Token) : Request :=
  {| body := None; authorization := Some t |}.

(** The token [alice] is given when she signs in at instant 5000500 with no
    [JWT_SECRET] set: issued at second 5000. *)
Definition alice_claims : gmap string jsval :=
  <["exp" := JNum 41000]>
    (<["iat" := JNum 5000]> {[ "id" := JStr "64b7f0c2a1d3e4f5a6b7c8d9" ]}).

Definition alice_token : Token :=
  {| claims := alice_claims;
     signature := mac "some string value only your app knows" alice_claims |}.

(** [alice]'s token with another signature. *)
Definition forged_token : Token :=
  {| claims := alice_claims; signature := "forged" |}.

(** An instant at which the store does not answer. *)
Definition store_down : Error :=
  {| err_name := "MongoNetworkError"; message := "connection closed";
     statusCode := JUndefined |}.

Definition world_down (t : Z) : World :=
  {| users := store; storeFault := Some store_down; now := t; calls := [] |}.

(** [alice] after she changed her password, and the store holding that. *)
Definition alice_changed : User :=
  {| _id := "64b7f0c2a1d3e4f5a6b7c8d9"; email := "a@x.com";
     password := "$2b$10$secret2"; token := None;
     createdAt := 1000; updatedAt := 3000 |}.

Definition world_changed (t : Z) : World :=
  {| users := <[_id alice := alice_changed]> store; storeFault := None;
     now := t; calls := [] |}.

End Demo.

Section Auth.

(** [process.env] *)
Variable env : gmap string string.
(** bcrypt's check of a password against a stored hash *)
Variable bcrypt_compare : string -> string -> bool.
(** the HS256 MAC of the claims under a key *)
Variable hs256 : string -> gmap string jsval -> string.
(** mongoose's cast of a query value to an ObjectId; [None]: CastError *)
Variable castObjectId : jsval -> option string.

(** *** bcrypt *)

(** [bcrypt.compareSync(data, hash)]: both arguments are required and
    [data] must be a string. *)
Definition compareSync (data : jsval) (hash : string) : M bool :=
  _ ← emit (CompareSync data hash);
  match data with
  | JUndefined | JNull => throw (new_Error "data and hash arguments required")
  | JStr s => mret (bcrypt_compare s hash)
  | _ => throw (new_Error "data must be a string or Buffer and hash must be a string")
  end.

(** *** jsonwebtoken *)

Definition JsonWebTokenError (msg : string) : Error :=
  {| err_name := "JsonWebTokenError"; message := msg; statusCode := JUndefined |}.

Definition TokenExpiredError : Error :=
  {| err_name := "TokenExpiredError"; message := "jwt expired";
     statusCode := JUndefined |}.

Definition NotBeforeError : Error :=
  {| err_name := "NotBeforeError"; message := "jwt not active";
     statusCode := JUndefined |}.

(** [jwt.sign(payload, secretOrPrivateKey, { expiresIn })] for a payload
    that carries neither [iat] nor [exp] (the one call of this module):
    [iat] is the current second, [exp] is [iat + expiresIn]. *)
Definition jwt_sign (payload : gmap string jsval) (secretOrPrivateKey : string)
    (expiresIn : Z) : M Token :=
  _ ← emit (Sign payload secretOrPrivateKey expiresIn);
  if String.eqb secretOrPrivateKey "" then
    throw (new_Error "secretOrPrivateKey must have a value")
  else
    ms ← Date_now;
    let timestamp := ms / 1000 in
    let payload := <["iat" := JNum timestamp]> payload in
    let payload := <["exp" := JNum (timestamp + expiresIn)]> payload in
    mret {| claims := payload; signature := hs256 secretOrPrivateKey payload |}.

(** [jwt.verify(token, secretOrPublicKey)] with default options: the
    signature, then [nbf], then [exp] against the current second.  A token
    with an empty signature part is refused as unsigned (an HS256 MAC is
    never empty), one with another signature than the MAC as wrongly
    signed. *)
Definition jwt_verify (t : Token) (secretOrPublicKey : string)
    : M (gmap string jsval) :=
  _ ← emit (Verify t secretOrPublicKey);
  if String.eqb secretOrPublicKey "" then
    throw (JsonWebTokenError "secret or public key must be provided")
  else if negb (String.eqb (signature t) (hs256 secretOrPublicKey (claims t))) then
    throw (JsonWebTokenError
             (if String.eqb (signature t) "" then "jwt signature is required"
              else "invalid signature"))
  else
    ms ← Date_now;
    let clockTimestamp := ms / 1000 in
    _ ← match claims t !! "nbf" with
        | None | Some JUndefined => mret tt
        | Some (JNum nbf) =>
            if Z.ltb clockTimestamp nbf then throw NotBeforeError else mret tt
        | Some _ => throw (JsonWebTokenError "invalid nbf value")
        end;
    _ ← match claims t !! "exp" with
        | None | Some JUndefined => mret tt
        | Some (JNum exp) =>
            if Z.leb exp clockTimestamp then throw TokenExpiredError else mret tt
        | Some _ => throw (JsonWebTokenError "invalid exp value")
        end;
    mret (claims t).

(** *** mongoose *)

Definition CastError : Error :=
  {| err_name := "CastError"; message := "Cast to ObjectId failed";
     statusCode := JUndefined |}.

(** [User.findById(id)], settled.  The id is cast first: one that does not
    cast is rejected with a CastError before the store is asked.  The query
    itself is rejected when the store cannot answer; it finds nothing for
    [undefined] and [null], and otherwise the document under the cast id,
    or [null]. *)
Definition User_findById (id : jsval) : M (Promise (option User)) :=
  _ ← emit (FindById id);
  w ← the_world;
  let answer (found : option User) :=
    match storeFault w with
    | Some e => Rejected e
    | None => Resolved found
    end in
  match id with
  | JUndefined | JNull => mret (answer None)
  | _ =>
      match castObjectId id with
      | Some k => mret (answer (users w !! k))
      | None => mret (Rejected CastError)
      end
  end.

(** *** config/auth.js *)

(** [process.env.JWT_SECRET || 'some string value only your app knows'] *)
Definition secret : string :=
  match env !! "JWT_SECRET" with
  | Some s => if truthy (JStr s) then s else "some string value only your app knows"
  | None => "some string value only your app knows"
  end.

Record StrategyOptions : Type := mkOpts {
  jwtFromRequest : Request -> option Token;
  secretOrKey : string
}.

(** [ExtractJwt.fromAuthHeaderAsBearerToken()] *)
Definition fromAuthHeaderAsBearerToken (req : Request) : option Token :=
  authorization req.

Definition opts : StrategyOptions :=
  {| jwtFromRequest := fromAuthHeaderAsBearerToken; secretOrKey := secret |}.

(** The callback given to [new Strategy]:
    [User.findById(jwt_payload.id).then(user => done(null, user)).catch(err => done(err))] *)
Definition strategy_verify (jwt_payload : gmap string jsval)
    (done : option Error -> option User -> M Outcome) : M Outcome :=
  p ← User_findById (prop jwt_payload "id");
  match p with
  | Resolved user => done None user
  | Rejected err => done (Some err) None
  end.

(** passport-jwt's [verified(err, user, info)] *)
Definition verified (err : option Error) (user : option User) : M Outcome :=
  match err, user with
  | Some e, _ => mret (Errored e)
  | None, None => mret (Fail None)
  | None, Some u => mret (Success u)
  end.

(** passport-jwt's [Strategy.prototype.authenticate] *)
Definition Strategy (o : StrategyOptions)
    (verify : gmap string jsval ->
              (option Error -> option User -> M Outcome) -> M Outcome)
    (req : Request) : M Outcome :=
  match jwtFromRequest o req with
  | None => mret (Fail (Some (new_Error "No auth token")))
  | Some t =>
      r ← try (jwt_verify t (secretOrKey o));
      match r with
      | inl jwt_err => mret (Fail (Some jwt_err))
      | inr payload => verify payload verified
      end
  end.

(** [const strategy = new Strategy(opts, function (jwt_payload, done) {...})] *)
Definition strategy : Request -> M Outcome := Strategy opts strategy_verify.

(** [passport.authenticate('jwt', { session: false })] *)
Definition requireToken (req : Request) : M Response :=
  o ← strategy req;
  match o with
  | Success user => mret (Next user)
  | Fail _ => mret Unauthorized
  | Errored err => mret (NextError err)
  end.

(** [req.body.credentials.password] *)
Definition req_body_credentials_password (req : Request) : M jsval :=
  match body req with
  | None => throw (TypeError "credentials")
  | Some b =>
      match credentials b with
      | None => throw (TypeError "password")
      | Some c => mret (prop c "password")
      end
  end.

(** [user.password] and [user._id], where [user] may be [null] *)
Definition user_password (user : option User) : M string :=
  match user with
  | Some u => mret (password u)
  | None => throw (TypeError "password")
  end.

Definition user__id (user : option User) : M string :=
  match user with
  | Some u => mret (_id u)
  | None => throw (TypeError "_id")
  end.

(** The error of the credentials guard. *)
Definition invalidCredentials : Error :=
  set_statusCode (JNum 422)
    (new_Error "The provided username or password is incorrect").

Definition createUserToken (req : Request) (user : option User) : M Token :=
  c ← (mret (negb (bool_decide (is_Some user)))
       ||| (pw ← req_body_credentials_password req; mret (negb (truthy pw)))
       ||| (pw ← req_body_credentials_password req;
            hash ← user_password user;
            ok ← compareSync pw hash;
            mret (negb ok)));
  if c : bool then
    throw invalidCredentials
  else
    id ← user__id user;
    jwt_sign {[ "id" := JStr id ]} secret 36000.

(** *** models/user.js *)

(** The plain object mongoose hands to a [toJSON] transform. *)
Definition toObject (u : User) : gmap string jsval :=
  let o := {[ "_id" := JStr (_id u) ]} in
  let o := <["email" := JStr (email u)]> o in
  let o := <["password" := JStr (password u)]> o in
  let o := match token u with Some t => <["token" := JStr t]> o | None => o end in
  let o := <["createdAt" := JNum (createdAt u)]> o in
  let o := <["updatedAt" := JNum (updatedAt u)]> o in
  <["__v" := JNum 0]> o.

(** [transform: (_doc, user) => { delete user.password; return user }] *)
Definition transform (_doc : User) (user : gmap string jsval)
    : gmap string jsval :=
  delete "password" user.

Definition toJSON (doc : User) : gmap string jsval :=
  transform doc (toObject doc).

(** The error a result carries, if any. *)
Definition carried_error (r : Result Outcome) : option Error :=
  match r with
  | Ok (Success _) => None
  | Ok (Fail info) => info
  | Ok (Errored err) => Some err
  | Throw e => Some e
  end.

(** Two worlds that differ at most in the log of library calls. *)
Definition same_state (w w' : World) : Prop :=
  users w' = users w /\ storeFault w' = storeFault w /\ now w' = now w.

(** A computation that leaves the store and the clock as they are. *)
Definition read_only {A : Type} (m : M A) : Prop :=
  forall w, same_state w (m w).2.

(** A computation whose result does not depend on the calls made before. *)
Definition history_free {A : Type} (m : M A) : Prop :=
  forall w w', same_state w w' ->
    (m w).1 = (m w').1 /\ same_state (m w).2 (m w').2.

(** ** Proofs *)

Ltac run :=
  repeat (progress
    (unfold mbind, M_bind, mret, M_ret, throw, emit, try, Date_now, the_world;
     cbn beta iota)).

(** *** The secret *)

Lemma secret_nonempty : secret <> "".
Proof.
  unfold secret. destruct (env !! "JWT_SECRET") as [s|]; [|discriminate].
  cbn [truthy]. destruct (String.eqb_spec s ""); cbn [negb]; [discriminate|assumption].
Qed.

Lemma secret_eqb : String.eqb secret "" = false.
Proof. apply String.eqb_neq, secret_nonempty. Qed.

(** *** The guard of createUserToken, case by case *)

Lemma createUserToken_absent (req : Request) (w : World) :
  createUserToken req None w = (Throw invalidCredentials, w).
Proof. reflexivity. Qed.

Lemma createUserToken_falsy (req : Request) (b : Body) (c : gmap string jsval)
    (user : option User) (w : World) :
  body req = Some b -> credentials b = Some c ->
  truthy (prop c "password") = false ->
  createUserToken req user w = (Throw invalidCredentials, w).
Proof.
  intros Hb Hc Hf. destruct user as [u|]; [|reflexivity].
  unfold createUserToken, orM, req_body_credentials_password. run.
  rewrite Hb, Hc. run. rewrite Hf. reflexivity.
Qed.

Lemma createUserToken_mismatch (req : Request) (b : Body) (c : gmap string jsval)
    (u : User) (pw : string) (w : World) :
  body req = Some b -> credentials b = Some c ->
  prop c "password" = JStr pw -> pw <> "" ->
  bcrypt_compare pw (password u) = false ->
  createUserToken req (Some u) w
  = (Throw invalidCredentials, log (CompareSync (JStr pw) (password u)) w).
Proof.
  intros Hb Hc Hp Hne Hcmp.
  unfold createUserToken, orM, req_body_credentials_password, user_password,
    compareSync. run.
  rewrite Hb, Hc. run. rewrite Hp. cbn [truthy].
  apply String.eqb_neq in Hne. rewrite Hne. cbn. rewrite Hcmp. reflexivity.
Qed.

Lemma createUserToken_match (req : Request) (b : Body) (c : gmap string jsval)
    (u : User) (pw : string) (w : World) :
  body req = Some b -> credentials b = Some c ->
  prop c "password" = JStr pw -> pw <> "" ->
  bcrypt_compare pw (password u) = true ->
  let payload :=
    <["exp" := JNum (now w / 1000 + 36000)]>
      (<["iat" := JNum (now w / 1000)]> {[ "id" := JStr (_id u) ]}) in
  createUserToken req (Some u) w
  = (Ok {| claims := payload; signature := hs256 secret payload |},
     log (Sign {[ "id" := JStr (_id u) ]} secret 36000)
       (log (CompareSync (JStr pw) (password u)) w)).
Proof.
  intros Hb Hc Hp Hne Hcmp payload.
  unfold createUserToken, orM, req_body_credentials_password, user_password,
    user__id, compareSync, jwt_sign. run.
  rewrite Hb, Hc. run. rewrite Hp. cbn [truthy].
  apply String.eqb_neq in Hne. rewrite Hne. cbn [negb]. rewrite Hcmp.
  cbn [negb]. rewrite secret_eqb. reflexivity.
Qed.

(** A token is returned only down the one path that passes the guard. *)
Lemma createUserToken_Ok_inv (req : Request) (user : option User) (w w' : World)
    (tok : Token) :
  createUserToken req user w = (Ok tok, w') ->
  exists (u : User) (b : Body) (c : gmap string jsval) (pw : string),
    user = Some u /\ body req = Some b /\ credentials b = Some c /\
    prop c "password" = JStr pw /\ pw <> "" /\
    bcrypt_compare pw (password u) = true /\
    claims tok = <["exp" := JNum (now w / 1000 + 36000)]>
                   (<["iat" := JNum (now w / 1000)]> {[ "id" := JStr (_id u) ]}) /\
    signature tok = hs256 secret (claims tok) /\
    w' = log (Sign {[ "id" := JStr (_id u) ]} secret 36000)
           (log (CompareSync (JStr pw) (password u)) w).
Proof.
  intros H. destruct user as [u|]; [|discriminate H].
  destruct (body req) as [b|] eqn:Hb.
  2:{ unfold createUserToken, orM, req_body_credentials_password in H.
      revert H. run. rewrite Hb. discriminate. }
  destruct (credentials b) as [c|] eqn:Hc.
  2:{ unfold createUserToken, orM, req_body_credentials_password in H.
      revert H. run. rewrite Hb, Hc. discriminate. }
  destruct (truthy (prop c "password")) eqn:Ht.
  2:{ rewrite (createUserToken_falsy req b c (Some u) w Hb Hc Ht) in H.
      discriminate H. }
  destruct (prop c "password") as [| |bb|n|pw] eqn:Hp; try discriminate Ht.
  - unfold createUserToken, orM, req_body_credentials_password, user_password,
      compareSync in H. revert H. run. rewrite Hb, Hc. run. rewrite Hp, Ht.
    discriminate.
  - unfold createUserToken, orM, req_body_credentials_password, user_password,
      compareSync in H. revert H. run. rewrite Hb, Hc. run. rewrite Hp, Ht.
    discriminate.
  - assert (Hne : pw <> "").
    { intros ->. discriminate Ht. }
    destruct (bcrypt_compare pw (password u)) eqn:Hcmp.
    + pose proof (createUserToken_match req b c u pw w Hb Hc Hp Hne Hcmp) as E.
      cbv zeta in E. rewrite E in H. injection H as <- <-.
      exists u, b, c, pw. repeat split; assumption || reflexivity.
    + rewrite (createUserToken_mismatch req b c u pw w Hb Hc Hp Hne Hcmp) in H.
      discriminate H.
Qed.

(** *** Verification *)

Lemma jwt_verify_ok (t : Token) (key : string) (e : Z) (w : World) :
  key <> "" ->
  signature t = hs256 key (claims t) ->
  claims t !! "nbf" = None ->
  claims t !! "exp" = Some (JNum e) ->
  now w / 1000 < e ->
  jwt_verify t key w = (Ok (claims t), log (Verify t key) w).
Proof.
  intros Hk Hs Hn He Hlt. unfold jwt_verify. run.
  apply String.eqb_neq in Hk. rewrite Hk.
  rewrite Hs, String.eqb_refl. cbn [negb]. rewrite Hn, He. run. cbn [log now].
  destruct (Z.leb_spec e (now w / 1000)); [lia|]. reflexivity.
Qed.

Lemma strategy_resolves (req : Request) (t : Token) (e : Z) (id k : string)
    (w : World) :
  authorization req = Some t ->
  signature t = hs256 secret (claims t) ->
  claims t !! "nbf" = None ->
  claims t !! "exp" = Some (JNum e) ->
  now w / 1000 < e ->
  prop (claims t) "id" = JStr id ->
  castObjectId (JStr id) = Some k ->
  storeFault w = None ->
  strategy req w
  = (Ok match users w !! k with Some u => Success u | None => Fail None end,
     log (FindById (JStr id)) (log (Verify t secret) w)).
Proof.
  intros Ha Hs Hn He Hlt Hid Hc Hf.
  unfold strategy, Strategy, opts, fromAuthHeaderAsBearerToken.
  cbn [jwtFromRequest secretOrKey]. rewrite Ha.
  unfold mbind at 1, M_bind at 1, try.
  rewrite (jwt_verify_ok t secret e w secret_nonempty Hs Hn He Hlt).
  unfold strategy_verify, User_findById. run. cbn [log storeFault users].
  rewrite Hf, Hid, Hc. destruct (users w !! k); reflexivity.
Qed.

(** *** Nothing writes the store *)

Lemma same_state_refl (w : World) : same_state w w.
Proof. repeat split. Qed.

Lemma same_state_trans (w1 w2 w3 : World) :
  same_state w1 w2 -> same_state w2 w3 -> same_state w1 w3.
Proof.
  unfold same_state. intros (-> & -> & ->) (-> & -> & ->). repeat split.
Qed.

Lemma read_only_ret {A : Type} (a : A) : read_only (mret a).
Proof. intros w. apply same_state_refl. Qed.

Lemma read_only_throw {A : Type} (e : Error) : read_only (throw (A:=A) e).
Proof. intros w. apply same_state_refl. Qed.

Lemma read_only_emit (ev : Event) : read_only (emit ev).
Proof. intros w. repeat split. Qed.

Lemma read_only_the_world : read_only the_world.
Proof. intros w. apply same_state_refl. Qed.

Lemma read_only_bind {A B : Type} (m : M A) (k : A -> M B) :
  read_only m -> (forall a, read_only (k a)) -> read_only (m ≫= k).
Proof.
  intros Hm Hk w. specialize (Hm w). unfold mbind, M_bind.
  destruct (m w) as [[a|e] w1]; cbn [snd] in *; [|exact Hm].
  eapply same_state_trans; [exact Hm|apply Hk].
Qed.

Lemma read_only_try {A : Type} (m : M A) : read_only m -> read_only (try m).
Proof.
  intros Hm w. specialize (Hm w). unfold try.
  destruct (m w) as [[a|e] w1]; exact Hm.
Qed.

Lemma read_only_orM (a b : M bool) :
  read_only a -> read_only b -> read_only (a ||| b).
Proof.
  intros Ha Hb. apply read_only_bind; [exact Ha|].
  intros [|]; [apply read_only_ret|exact Hb].
Qed.

Create HintDb ro discriminated.
#[local] Hint Resolve read_only_ret read_only_throw read_only_emit
  read_only_the_world read_only_try read_only_orM : ro.

Ltac ro :=
  repeat first
    [ progress auto with ro
    | progress cbv zeta
    | apply read_only_bind; [|intros ?]
    | match goal with
      | |- read_only (match ?x with _ => _ end) => destruct x
      | |- read_only (if ?x then _ else _) => destruct x
      end ].

Lemma read_only_compareSync (data : jsval) (hash : string) :
  read_only (compareSync data hash).
Proof. unfold compareSync. ro. Qed.

Lemma read_only_jwt_sign (payload : gmap string jsval) (key : string) (ttl : Z) :
  read_only (jwt_sign payload key ttl).
Proof. unfold jwt_sign, Date_now. ro. Qed.

Lemma read_only_jwt_verify (t : Token) (key : string) :
  read_only (jwt_verify t key).
Proof. unfold jwt_verify, Date_now. ro. Qed.

Lemma read_only_User_findById (id : jsval) : read_only (User_findById id).
Proof. unfold User_findById. ro. Qed.

Lemma read_only_password_of (req : Request) :
  read_only (req_body_credentials_password req).
Proof. unfold req_body_credentials_password. ro. Qed.

Lemma read_only_verified (err : option Error) (user : option User) :
  read_only (verified err user).
Proof. unfold verified. ro. Qed.

#[local] Hint Resolve read_only_compareSync read_only_jwt_sign
  read_only_jwt_verify read_only_User_findById read_only_password_of
  read_only_verified : ro.

Lemma read_only_createUserToken (req : Request) (user : option User) :
  read_only (createUserToken req user).
Proof. unfold createUserToken, user_password, user__id. ro. Qed.

Lemma read_only_strategy (req : Request) : read_only (strategy req).
Proof. unfold strategy, Strategy, strategy_verify. ro. Qed.

(** *** The token's claims *)

Lemma issued_claims_lookup (id : string) (iat : Z) (k : string) (v : jsval) :
  (<["exp" := JNum (iat + 36000)]>
     (<["iat" := JNum iat]> ({[ "id" := JStr id ]} : gmap string jsval))) !! k
  = Some v ->
  (k = "id" /\ v = JStr id) \/ (k = "iat" /\ v = JNum iat)
  \/ (k = "exp" /\ v = JNum (iat + 36000)).
Proof.
  intros H.
  destruct (decide (k = "exp")) as [->|Hexp].
  { rewrite lookup_insert_eq in H. injection H as <-. auto. }
  rewrite lookup_insert_ne in H by congruence.
  destruct (decide (k = "iat")) as [->|Hiat].
  { rewrite lookup_insert_eq in H. injection H as <-. auto. }
  rewrite lookup_insert_ne in H by congruence.
  apply lookup_singleton_Some in H as [<- <-]. auto.
Qed.

(** ** The claims of the specification *)

(** C1, as amended: for a user whose stored hash matches a non-empty
    password, [createUserToken] called with that password returns a token
    whose [id] claim is the user's [_id]; and whenever the strategy then
    receives this token before its expiry, with the user still in the store
    under that [_id], it resolves to that same user. *)
Theorem createUserToken_strategy_roundtrip
    (req : Request) (b : Body) (c : gmap string jsval) (u : User)
    (pw : string) (w w' : World) :
  body req = Some b -> credentials b = Some c ->
  prop c "password" = JStr pw ->
  pw <> "" ->
  bcrypt_compare pw (password u) = true ->
  castObjectId (JStr (_id u)) = Some (_id u) ->
  users w' !! _id u = Some u -> storeFault w' = None ->
  now w' / 1000 < now w / 1000 + 36000 ->
  exists (tok : Token) (w1 : World),
    createUserToken req (Some u) w = (Ok tok, w1) /\
    prop (claims tok) "id" = JStr (_id u) /\
    (forall req' : Request, authorization req' = Some tok ->
       exists w2 : World, strategy req' w' = (Ok (Success u), w2)).
Proof.
  intros Hb Hc Hp Hne Hcmp Hcast Hu Hf Hlt.
  pose proof (createUserToken_match req b c u pw w Hb Hc Hp Hne Hcmp) as E.
  cbv zeta in E. eexists _, _. split; [exact E|]. cbn [claims].
  split; [reflexivity|]. intros req' Ha.
  eexists.
  rewrite (strategy_resolves req' _ (now w / 1000 + 36000) (_id u) (_id u) w' Ha);
    try reflexivity; try assumption.
  rewrite Hu. reflexivity.
Qed.

(** X12: when the presented password is a string, an unknown email (no
    user found) and a known user whose stored hash bcrypt does not accept
    for it fail with the identical error: same name, same status code 422,
    same message. *)
Theorem createUserToken_undifferentiated_error
    (req1 req2 : Request) (b : Body) (c : gmap string jsval) (u : User)
    (pw : string) (w1 w2 : World) :
  body req2 = Some b -> credentials b = Some c ->
  prop c "password" = JStr pw ->
  bcrypt_compare pw (password u) = false ->
  (createUserToken req1 None w1).1 = Throw invalidCredentials /\
  (createUserToken req2 (Some u) w2).1 = Throw invalidCredentials /\
  (createUserToken req1 None w1).1 = (createUserToken req2 (Some u) w2).1.
Proof.
  intros Hb Hc Hp Hcmp.
  assert (E : (createUserToken req2 (Some u) w2).1 = Throw invalidCredentials).
  { destruct (decide (pw = "")) as [->|Hne].
    - rewrite (createUserToken_falsy req2 b c (Some u) w2 Hb Hc); [reflexivity|].
      rewrite Hp. reflexivity.
    - rewrite (createUserToken_mismatch req2 b c u pw w2 Hb Hc Hp Hne Hcmp).
      reflexivity. }
  rewrite E. repeat split.
Qed.

(** The expiry of every issued token: [exp] is [iat] plus 36000 seconds,
    [iat] being the second of issuance. *)
Lemma createUserToken_expiry (req : Request) (user : option User) (w w' : World)
    (tok : Token) :
  createUserToken req user w = (Ok tok, w') ->
  claims tok !! "iat" = Some (JNum (now w / 1000)) /\
  claims tok !! "exp" = Some (JNum (now w / 1000 + 36000)).
Proof.
  intros H. apply createUserToken_Ok_inv in H
    as (u & b & c & pw & _ & _ & _ & _ & _ & _ & Hcl & _).
  rewrite Hcl. split.
  - rewrite lookup_insert_ne by discriminate. apply lookup_insert_eq.
  - apply lookup_insert_eq.
Qed.

(** C4, as amended: for a token with a valid signature and claims that have
    not expired, whose [id] no longer resolves to a user, the callback calls
    [done(null, null)]: the strategy fails the request with no error and no
    info attached, resolves no identity, and [requireToken] answers 401. *)
Theorem strategy_removed_user_fails_without_error
    (req : Request) (t : Token) (e : Z) (id k : string) (w : World) :
  authorization req = Some t ->
  signature t = hs256 secret (claims t) ->
  claims t !! "nbf" = None ->
  claims t !! "exp" = Some (JNum e) ->
  now w / 1000 < e ->
  prop (claims t) "id" = JStr id ->
  castObjectId (JStr id) = Some k ->
  storeFault w = None ->
  users w !! k = None ->
  (strategy req w).1 = Ok (Fail None) /\
  carried_error (strategy req w).1 = None /\
  (requireToken req w).1 = Ok Unauthorized.
Proof.
  intros Ha Hs Hn He Hlt Hid Hc Hf Hu.
  pose proof (strategy_resolves req t e id k w Ha Hs Hn He Hlt Hid Hc Hf) as E.
  rewrite Hu in E. unfold requireToken. unfold mbind at 1, M_bind at 1.
  rewrite E. repeat split.
Qed.

(** C5: the payload of every issued token has exactly the claims [id], [iat]
    and [exp]; [id] is the user's [_id], the other two are the issuance and
    expiry seconds; there is no [email] and no [password] claim, and no
    claim holds any other value. *)
Theorem createUserToken_payload_minimal
    (req : Request) (user : option User) (w w' : World) (tok : Token) :
  createUserToken req user w = (Ok tok, w') ->
  exists u : User,
    user = Some u /\
    dom (claims tok) = ({["id"]} ∪ {["iat"]} ∪ {["exp"]} : gset string) /\
    claims tok !! "id" = Some (JStr (_id u)) /\
    claims tok !! "email" = None /\
    claims tok !! "password" = None /\
    (forall (k : string) (v : jsval), claims tok !! k = Some v ->
       (k = "id" /\ v = JStr (_id u)) \/
       (k = "iat" /\ v = JNum (now w / 1000)) \/
       (k = "exp" /\ v = JNum (now w / 1000 + 36000))).
Proof.
  intros H. apply createUserToken_Ok_inv in H
    as (u & b & c & pw & -> & _ & _ & _ & _ & _ & Hcl & _).
  exists u. rewrite Hcl. split; [reflexivity|]. split.
  { rewrite !dom_insert_L, dom_singleton_L. set_solver. }
  split.
  { rewrite !lookup_insert_ne by discriminate. apply lookup_singleton_eq. }
  split.
  { rewrite !lookup_insert_ne by discriminate. apply lookup_singleton_ne.
    discriminate. }
  split.
  { rewrite !lookup_insert_ne by discriminate. apply lookup_singleton_ne.
    discriminate. }
  intros k v. apply issued_claims_lookup.
Qed.

(** C6: the key the strategy verifies with is the key [createUserToken]
    signs with; it is never empty: it is [JWT_SECRET] of the environment
    when that is set to a non-empty string, and the fallback string, itself
    non-empty, otherwise. *)
Theorem secret_shared_and_nonempty :
  secretOrKey opts = secret /\
  secret <> "" /\
  "some string value only your app knows" <> "" /\
  (forall s : string, env !! "JWT_SECRET" = Some s -> s <> "" -> secret = s) /\
  (env !! "JWT_SECRET" = None \/ env !! "JWT_SECRET" = Some "" ->
   secret = "some string value only your app knows") /\
  (forall (req : Request) (user : option User) (w w' : World) (tok : Token),
     createUserToken req user w = (Ok tok, w') ->
     signature tok = hs256 (secretOrKey opts) (claims tok) /\
     exists (ev : Event) (payload : gmap string jsval),
       calls w' = (calls w ++ [ev; Sign payload (secretOrKey opts) 36000])%list) /\
  (forall (req : Request) (t : Token) (w : World),
     authorization req = Some t ->
     exists rest : list Event,
       calls (strategy req w).2
       = (calls w ++ Verify t secret :: rest)%list).
Proof.
  split; [reflexivity|]. split; [exact secret_nonempty|].
  split; [discriminate|]. split.
  { intros s Hs Hne. unfold secret. rewrite Hs. cbn [truthy].
    apply String.eqb_neq in Hne. rewrite Hne. reflexivity. }
  split.
  { intros [H|H]; unfold secret; rewrite H; reflexivity. }
  split.
  { intros req user w w' tok H. apply createUserToken_Ok_inv in H
      as (u & b & c & pw & _ & _ & _ & _ & _ & _ & _ & Hsig & ->).
    split; [exact Hsig|]. eexists _, _. cbn [log calls opts secretOrKey].
    rewrite <- app_assoc. reflexivity. }
  intros req t w Ha.
  unfold strategy, Strategy, opts, fromAuthHeaderAsBearerToken.
  cbn [jwtFromRequest secretOrKey]. rewrite Ha.
  unfold mbind at 1, M_bind at 1, try.
  assert (Hv : exists r, jwt_verify t secret w = (r, log (Verify t secret) w)).
  { unfold jwt_verify. run. rewrite secret_eqb.
    destruct (negb _); [eexists; reflexivity|].
    cbn [log now].
    destruct (claims t !! "nbf") as [[| | | nbf |]|];
      try (eexists; reflexivity).
    all: try destruct (Z.ltb _ nbf); try (eexists; reflexivity).
    all: destruct (claims t !! "exp") as [[| | | ex |]|];
      try (eexists; reflexivity).
    all: destruct (Z.leb ex _); eexists; reflexivity. }
  destruct Hv as [r Hv]. rewrite Hv.
  destruct r as [payload|err].
  - unfold strategy_verify, User_findById. run. cbv zeta.
    cbn [log calls storeFault users].
    destruct (prop payload "id"); try destruct (castObjectId _);
      try destruct (users w !! _); destruct (storeFault w).
    all: eexists; cbn [verified]; run; cbn [snd log calls];
      rewrite <- app_assoc; reflexivity.
  - exists []. reflexivity.
Qed.

(** X13: the three failures that reach the guard's [throw] (no user for
    the email; [credentials] with no password or a falsy one; a string
    password the stored hash does not match) surface as the one error with
    status code 422 and the one message, which names neither the email nor
    the password as the cause. *)
Theorem createUserToken_credential_failure_422
    (req : Request) (user : option User) (w : World) :
  (user = None \/
   exists (b : Body) (c : gmap string jsval),
     body req = Some b /\ credentials b = Some c /\
     (truthy (prop c "password") = false \/
      exists (pw : string) (u : User),
        prop c "password" = JStr pw /\ user = Some u /\
        bcrypt_compare pw (password u) = false)) ->
  (createUserToken req user w).1 = Throw invalidCredentials /\
  statusCode invalidCredentials = JNum 422 /\
  message invalidCredentials = "The provided username or password is incorrect" /\
  err_name invalidCredentials = "Error".
Proof.
  intros H. split; [|repeat split].
  destruct H as [->|(b & c & Hb & Hc & [Hf|(pw & u & Hp & -> & Hcmp)])].
  - reflexivity.
  - rewrite (createUserToken_falsy req b c user w Hb Hc Hf). reflexivity.
  - destruct (decide (pw = "")) as [->|Hne].
    + rewrite (createUserToken_falsy req b c (Some u) w Hb Hc); [reflexivity|].
      rewrite Hp. reflexivity.
    + rewrite (createUserToken_mismatch req b c u pw w Hb Hc Hp Hne Hcmp).
      reflexivity.
Qed.

(** C8: the [toJSON] output of a user never has a [password] field: the
    transform removes it from whatever object it is given, and the object
    mongoose gives it does hold the hash. *)
Theorem toJSON_omits_password (doc : User) (user : gmap string jsval) :
  transform doc user !! "password" = None /\
  ("password" ∉ dom (transform doc user)) /\
  toObject doc !! "password" = Some (JStr (password doc)) /\
  toJSON doc !! "password" = None /\
  ("password" ∉ dom (toJSON doc)).
Proof.
  assert (Hdel : forall o : gmap string jsval, transform doc o !! "password" = None).
  { intros o. apply lookup_delete_eq. }
  split; [apply Hdel|]. split; [apply not_elem_of_dom, Hdel|]. split.
  { unfold toObject. rewrite !lookup_insert_ne by discriminate.
    destruct (token doc).
    - rewrite lookup_insert_ne by discriminate. apply lookup_insert_eq.
    - apply lookup_insert_eq. }
  split; [apply Hdel|apply not_elem_of_dom, Hdel].
Qed.

(** C9: neither [createUserToken] nor the strategy (nor [requireToken]
    around it) changes the store: after any call, successful or not, the
    users collection is what it was; so is the rest of the world but the
    log of library calls. *)
Theorem authenticator_read_only (req : Request) (user : option User) (w : World) :
  users (createUserToken req user w).2 = users w /\
  users (strategy req w).2 = users w /\
  users (requireToken req w).2 = users w /\
  same_state w (createUserToken req user w).2 /\
  same_state w (strategy req w).2.
Proof.
  pose proof (read_only_createUserToken req user w) as Hc.
  pose proof (read_only_strategy req w) as Hs.
  assert (Hr : read_only (requireToken req)).
  { unfold requireToken. apply read_only_bind; [apply read_only_strategy|].
    intros [u|i|e]; apply read_only_ret. }
  specialize (Hr w).
  repeat split; try apply Hc; try apply Hs; apply Hr.
Qed.

(** C10: when [credentials.password] is absent or falsy (the empty string
    included), [createUserToken] throws the same 422 error without calling
    [bcrypt.compareSync], or any library at all, whatever the user, also one
    whose stored hash matches the empty password. *)
Theorem createUserToken_falsy_password_no_compare
    (req : Request) (b : Body) (c : gmap string jsval) (user : option User)
    (w : World) :
  body req = Some b -> credentials b = Some c ->
  truthy (prop c "password") = false ->
  createUserToken req user w = (Throw invalidCredentials, w) /\
  statusCode invalidCredentials = JNum 422 /\
  calls (createUserToken req user w).2 = calls w /\
  (forall (data : jsval) (hash : string),
     CompareSync data hash ∉ drop (length (calls w))
                                  (calls (createUserToken req user w).2)).
Proof.
  intros Hb Hc Hf.
  rewrite (createUserToken_falsy req b c user w Hb Hc Hf). cbn [snd].
  repeat split. intros data hash. rewrite drop_all. apply not_elem_of_nil.
Qed.

(** ** Beyond the specification: the rest of the module's behaviour *)

(** *** How verification and the callback evaluate *)

Lemma jwt_verify_world (t : Token) (key : string) (w : World) :
  exists r, jwt_verify t key w = (r, log (Verify t key) w).
Proof.
  unfold jwt_verify. run.
  destruct (String.eqb key ""); [eexists; reflexivity|].
  destruct (negb _); [eexists; reflexivity|].
  cbn [log now].
  destruct (claims t !! "nbf") as [[| | | nbf |]|];
    try (eexists; reflexivity).
  all: try destruct (Z.ltb _ nbf); try (eexists; reflexivity).
  all: destruct (claims t !! "exp") as [[| | | ex |]|];
    try (eexists; reflexivity).
  all: destruct (Z.leb ex _); eexists; reflexivity.
Qed.

Lemma jwt_verify_bad_signature (t : Token) (key : string) (w : World) :
  key <> "" ->
  signature t <> hs256 key (claims t) ->
  jwt_verify t key w
  = (Throw (JsonWebTokenError
              (if String.eqb (signature t) "" then "jwt signature is required"
               else "invalid signature")),
     log (Verify t key) w).
Proof.
  intros Hk Hs. unfold jwt_verify. run.
  apply String.eqb_neq in Hk, Hs. rewrite Hk, Hs. reflexivity.
Qed.

Lemma jwt_verify_expired (t : Token) (key : string) (e : Z) (w : World) :
  key <> "" ->
  signature t = hs256 key (claims t) ->
  claims t !! "nbf" = None ->
  claims t !! "exp" = Some (JNum e) ->
  e <= now w / 1000 ->
  jwt_verify t key w = (Throw TokenExpiredError, log (Verify t key) w).
Proof.
  intros Hk Hs Hn He Hle. unfold jwt_verify. run.
  apply String.eqb_neq in Hk. rewrite Hk.
  rewrite Hs, String.eqb_refl. cbn [negb]. rewrite Hn, He. run. cbn [log now].
  destruct (Z.leb_spec e (now w / 1000)); [reflexivity|lia].
Qed.

Lemma jwt_verify_Ok_inv (t : Token) (key : string) (w w' : World)
    (p : gmap string jsval) :
  jwt_verify t key w = (Ok p, w') ->
  p = claims t /\ w' = log (Verify t key) w /\ key <> "" /\
  signature t = hs256 key (claims t) /\
  (forall n : Z, claims t !! "nbf" = Some (JNum n) -> n <= now w / 1000) /\
  (forall e : Z, claims t !! "exp" = Some (JNum e) -> now w / 1000 < e).
Proof.
  unfold jwt_verify. run.
  destruct (String.eqb_spec key ""); [discriminate|].
  destruct (String.eqb_spec (signature t) (hs256 key (claims t)));
    cbn [negb]; [|discriminate].
  cbn [log now].
  destruct (claims t !! "nbf") as [[| | | nbf |]|]; try discriminate.
  all: try (destruct (Z.ltb_spec (now w / 1000) nbf); [discriminate|]).
  all: destruct (claims t !! "exp") as [[| | | ex |]|]; try discriminate.
  all: try (destruct (Z.leb_spec ex (now w / 1000)); [discriminate|]).
  all: intros Heq; injection Heq as <- <-; repeat split; try assumption.
  all: try (intros ? [=]; subst; lia).
Qed.

Lemma strategy_unfold (req : Request) (t : Token) (w : World) :
  authorization req = Some t ->
  strategy req w
  = match jwt_verify t secret w with
    | (Ok p, w1) => strategy_verify p verified w1
    | (Throw e, w1) => (Ok (Fail (Some e)), w1)
    end.
Proof.
  intros Ha. unfold strategy, Strategy, opts, fromAuthHeaderAsBearerToken.
  cbn [jwtFromRequest secretOrKey]. rewrite Ha.
  unfold mbind at 1, M_bind at 1, try.
  destruct (jwt_verify t secret w) as [[p|e] w1]; reflexivity.
Qed.

Lemma strategy_verify_eval (p : gmap string jsval) (w : World) :
  strategy_verify p verified w
  = (Ok (let answer (user : option User) :=
           match storeFault w with
           | Some e => Errored e
           | None =>
               match user with
               | Some u => Success u
               | None => Fail None
               end
           end in
         match prop p "id" with
         | JUndefined | JNull => answer None
         | v =>
             match castObjectId v with
             | Some k => answer (users w !! k)
             | None => Errored CastError
             end
         end),
     log (FindById (prop p "id")) w).
Proof.
  unfold strategy_verify, User_findById. run. cbv zeta.
  cbn [log storeFault users].
  destruct (prop p "id"); try destruct (castObjectId _);
    try destruct (users w !! _); destruct (storeFault w); reflexivity.
Qed.

Lemma requireToken_unfold (req : Request) (w : World) (o : Outcome) (w' : World) :
  strategy req w = (Ok o, w') ->
  requireToken req w
  = (Ok match o with
        | Success user => Next user
        | Fail _ => Unauthorized
        | Errored err => NextError err
        end, w').
Proof.
  intros H. unfold requireToken. unfold mbind at 1, M_bind at 1. rewrite H.
  destruct o; reflexivity.
Qed.

(** *** Results do not depend on earlier calls *)

Lemma history_free_ret {A : Type} (a : A) : history_free (mret a).
Proof. intros w w' Hs. split; [reflexivity|exact Hs]. Qed.

Lemma history_free_throw {A : Type} (e : Error) : history_free (throw (A:=A) e).
Proof. intros w w' Hs. split; [reflexivity|exact Hs]. Qed.

Lemma history_free_emit (ev : Event) : history_free (emit ev).
Proof. intros w w' Hs. split; [reflexivity|exact Hs]. Qed.

Lemma history_free_bind {A B : Type} (m : M A) (k : A -> M B) :
  history_free m -> (forall a, history_free (k a)) -> history_free (m ≫= k).
Proof.
  intros Hm Hk w w' Hs. destruct (Hm w w' Hs) as [Hr Hw].
  unfold mbind, M_bind.
  destruct (m w) as [[a|e] w1], (m w') as [[a'|e'] w1'];
    cbn [fst snd] in Hr, Hw; try discriminate Hr.
  - injection Hr as ->. apply Hk, Hw.
  - injection Hr as ->. split; [reflexivity|exact Hw].
Qed.

Lemma history_free_try {A : Type} (m : M A) :
  history_free m -> history_free (try m).
Proof.
  intros Hm w w' Hs. destruct (Hm w w' Hs) as [Hr Hw]. unfold try.
  destruct (m w) as [[a|e] w1], (m w') as [[a'|e'] w1'];
    cbn [fst snd] in Hr, Hw; try discriminate Hr;
    injection Hr as ->; split; [reflexivity|exact Hw|reflexivity|exact Hw].
Qed.

Lemma history_free_orM (a b : M bool) :
  history_free a -> history_free b -> history_free (a ||| b).
Proof.
  intros Ha Hb. apply history_free_bind; [exact Ha|].
  intros [|]; [apply history_free_ret|exact Hb].
Qed.

Lemma history_free_Date_now : history_free Date_now.
Proof.
  intros w w' Hs. pose proof Hs as (_ & _ & Hn). unfold Date_now. run.
  cbn [fst snd]. rewrite Hn. split; [reflexivity|exact Hs].
Qed.

Lemma history_free_User_findById (id : jsval) : history_free (User_findById id).
Proof.
  intros w w' (Hu & Hf & Hn). unfold User_findById. run. cbv zeta.
  cbn [log storeFault users]. rewrite Hu, Hf.
  assert (Hs : same_state (log (FindById id) w) (log (FindById id) w')).
  { repeat split; assumption. }
  destruct id; try destruct (castObjectId _); destruct (storeFault w);
    split; try reflexivity; exact Hs.
Qed.

#[local] Hint Resolve history_free_ret history_free_throw history_free_emit
  history_free_try history_free_orM history_free_Date_now
  history_free_User_findById : ro.

Ltac hf :=
  repeat first
    [ progress auto with ro
    | progress cbv zeta
    | apply history_free_try
    | apply history_free_orM
    | apply history_free_bind; [|intros ?]
    | match goal with
      | |- history_free (match ?x with _ => _ end) => destruct x
      | |- history_free (if ?x then _ else _) => destruct x
      end ].

Lemma history_free_createUserToken (req : Request) (user : option User) :
  history_free (createUserToken req user).
Proof.
  unfold createUserToken, user_password, user__id,
    req_body_credentials_password, compareSync, jwt_sign. hf.
Qed.

Lemma history_free_strategy (req : Request) : history_free (strategy req).
Proof.
  unfold strategy, Strategy, strategy_verify, verified, jwt_verify. hf.
Qed.

(** *** The strategy and [requireToken] *)

Lemma strategy_returns (req : Request) (w : World) :
  exists (o : Outcome) (w' : World), strategy req w = (Ok o, w').
Proof.
  destruct (authorization req) as [t|] eqn:Ha.
  - rewrite (strategy_unfold req t w Ha).
    destruct (jwt_verify t secret w) as [[p|e] w1].
    + rewrite strategy_verify_eval. eexists _, _. reflexivity.
    + eexists _, _. reflexivity.
  - unfold strategy, Strategy, opts, fromAuthHeaderAsBearerToken.
    cbn [jwtFromRequest]. rewrite Ha. eexists _, _. reflexivity.
Qed.

(** X1: a correctly signed token whose [exp] second has been reached is
    failed with [TokenExpiredError]; the store is not queried (the only call
    made is the verification) and [requireToken] answers 401. *)
Theorem strategy_rejects_expired_token
    (req : Request) (t : Token) (e : Z) (w : World) :
  authorization req = Some t ->
  signature t = hs256 secret (claims t) ->
  claims t !! "nbf" = None ->
  claims t !! "exp" = Some (JNum e) ->
  e <= now w / 1000 ->
  strategy req w = (Ok (Fail (Some TokenExpiredError)), log (Verify t secret) w) /\
  requireToken req w = (Ok Unauthorized, log (Verify t secret) w).
Proof.
  intros Ha Hs Hn He Hle.
  assert (E : strategy req w
              = (Ok (Fail (Some TokenExpiredError)), log (Verify t secret) w)).
  { rewrite (strategy_unfold req t w Ha).
    rewrite (jwt_verify_expired t secret e w secret_nonempty Hs Hn He Hle).
    reflexivity. }
  split; [exact E|]. rewrite (requireToken_unfold req w _ _ E). reflexivity.
Qed.

(** X2: a token whose signature is not the MAC of its claims under the
    secret is failed with a JsonWebTokenError, whatever its claims; the
    callback does not run, the store is not queried (the only call made is
    the verification) and [requireToken] answers 401. *)
Theorem strategy_rejects_bad_signature (req : Request) (t : Token) (w : World) :
  authorization req = Some t ->
  signature t <> hs256 secret (claims t) ->
  exists jwt_err : Error,
    err_name jwt_err = "JsonWebTokenError" /\
    strategy req w = (Ok (Fail (Some jwt_err)), log (Verify t secret) w) /\
    requireToken req w = (Ok Unauthorized, log (Verify t secret) w).
Proof.
  intros Ha Hs. eexists.
  assert (E : strategy req w
              = (Ok (Fail (Some (JsonWebTokenError
                                   (if String.eqb (signature t) ""
                                    then "jwt signature is required"
                                    else "invalid signature")))),
                 log (Verify t secret) w)).
  { rewrite (strategy_unfold req t w Ha).
    rewrite (jwt_verify_bad_signature t secret w secret_nonempty Hs).
    reflexivity. }
  split; [|split; [exact E|]]; [reflexivity|].
  rewrite (requireToken_unfold req w _ _ E). reflexivity.
Qed.

(** X3: when the store rejects the lookup of a verified token's user, whose
    [id] claim casts to an ObjectId, the callback's [catch] hands the error
    to [done]: the strategy reports that error and [requireToken] passes it
    to [next], instead of answering 401. *)
Theorem strategy_store_rejection_is_an_error
    (req : Request) (t : Token) (e : Z) (k : string) (err : Error) (w : World) :
  authorization req = Some t ->
  signature t = hs256 secret (claims t) ->
  claims t !! "nbf" = None ->
  claims t !! "exp" = Some (JNum e) ->
  now w / 1000 < e ->
  castObjectId (prop (claims t) "id") = Some k ->
  storeFault w = Some err ->
  (strategy req w).1 = Ok (Errored err) /\
  (requireToken req w).1 = Ok (NextError err).
Proof.
  intros Ha Hs Hn He Hlt Hc Hf.
  assert (E : strategy req w
              = (Ok (Errored err),
                 log (FindById (prop (claims t) "id")) (log (Verify t secret) w))).
  { rewrite (strategy_unfold req t w Ha).
    rewrite (jwt_verify_ok t secret e w secret_nonempty Hs Hn He Hlt).
    rewrite strategy_verify_eval. cbv zeta. cbn [log storeFault].
    destruct (prop (claims t) "id") eqn:Hid; rewrite ?Hc, Hf; reflexivity. }
  rewrite (requireToken_unfold req w _ _ E), E. split; reflexivity.
Qed.

(** X4: the strategy never throws, whatever the request and the world; it
    makes no call without a bearer token, only the verification when that
    fails (the outcome is then a failure carrying the jwt error), and
    otherwise the verification followed by exactly one store lookup, of the
    token's [id] claim. *)
Theorem strategy_never_throws (req : Request) (w : World) :
  exists o : Outcome,
    (strategy req w).1 = Ok o /\
    ((authorization req = None /\ (strategy req w).2 = w /\
      o = Fail (Some (new_Error "No auth token"))) \/
     (exists (t : Token) (jwt_err : Error),
        authorization req = Some t /\ o = Fail (Some jwt_err) /\
        calls (strategy req w).2 = (calls w ++ [Verify t secret])%list) \/
     (exists t : Token,
        authorization req = Some t /\
        calls (strategy req w).2
        = (calls w ++ [Verify t secret; FindById (prop (claims t) "id")])%list)).
Proof.
  destruct (authorization req) as [t|] eqn:Ha.
  - rewrite (strategy_unfold req t w Ha).
    destruct (jwt_verify t secret w) as [[p|e] w1] eqn:Hv.
    + apply jwt_verify_Ok_inv in Hv as (-> & -> & _).
      rewrite strategy_verify_eval. eexists. split; [reflexivity|].
      right. right. exists t. split; [reflexivity|]. cbn [snd log calls].
      rewrite <- app_assoc. reflexivity.
    + destruct (jwt_verify_world t secret w) as [r Hr]. rewrite Hr in Hv.
      injection Hv as _ <-. eexists. split; [reflexivity|].
      right. left. exists t, e. repeat split.
  - unfold strategy, Strategy, opts, fromAuthHeaderAsBearerToken.
    cbn [jwtFromRequest]. rewrite Ha. eexists. split; [reflexivity|].
    left. repeat split.
Qed.

(** X5: [requireToken] lets a request through as user [u] only if it carries
    a bearer token signed under the secret, not expired at that second,
    whose [id] claim casts to the key under which the store, answering, holds
    [u]. *)
Theorem requireToken_next_is_sound (req : Request) (u : User) (w : World) :
  (requireToken req w).1 = Ok (Next u) ->
  exists (t : Token) (k : string),
    authorization req = Some t /\
    signature t = hs256 secret (claims t) /\
    (forall e : Z, claims t !! "exp" = Some (JNum e) -> now w / 1000 < e) /\
    castObjectId (prop (claims t) "id") = Some k /\
    storeFault w = None /\
    users w !! k = Some u.
Proof.
  intros H. destruct (strategy_returns req w) as (o & w' & E).
  rewrite (requireToken_unfold req w o w' E) in H. cbn [fst] in H.
  destruct o as [u'| |]; try discriminate H. injection H as ->.
  destruct (authorization req) as [t|] eqn:Ha.
  2:{ revert E. unfold strategy, Strategy, opts, fromAuthHeaderAsBearerToken.
      cbn [jwtFromRequest]. rewrite Ha. discriminate. }
  rewrite (strategy_unfold req t w Ha) in E.
  destruct (jwt_verify t secret w) as [[p|e] w1] eqn:Hv; [|discriminate E].
  apply jwt_verify_Ok_inv in Hv as (-> & -> & _ & Hs & _ & Hexp).
  rewrite strategy_verify_eval in E. cbv zeta in E.
  cbn [log storeFault users] in E.
  destruct (storeFault w); [destruct (prop (claims t) "id");
                            try destruct (castObjectId _); discriminate E|].
  destruct (prop (claims t) "id") eqn:Hid; try discriminate E.
  all: destruct (castObjectId _) as [k|] eqn:Hc; [|discriminate E].
  all: destruct (users w !! k) as [u0|] eqn:Hu; [|discriminate E].
  all: injection E as -> _; exists t, k; rewrite Hid;
    repeat split; first [assumption|reflexivity].
Qed.

(** *** Issuing and verifying together *)

(** X6: a token issued for a user is accepted for exactly 36000 seconds:
    while the clock's second is below the issuance second plus 36000 the
    strategy resolves it to the document the store holds under the user's
    [_id] at that time (also one changed since the token was issued); from
    that second on it is failed as expired. *)
Theorem issued_token_lifetime
    (req req' : Request) (u u' : User) (tok : Token) (w w1 w' : World) :
  createUserToken req (Some u) w = (Ok tok, w1) ->
  authorization req' = Some tok ->
  castObjectId (JStr (_id u)) = Some (_id u) ->
  storeFault w' = None ->
  users w' !! _id u = Some u' ->
  (strategy req' w').1
  = if Z.ltb (now w' / 1000) (now w / 1000 + 36000)
    then Ok (Success u')
    else Ok (Fail (Some TokenExpiredError)).
Proof.
  intros H Ha Hc Hf Hu.
  apply createUserToken_Ok_inv in H
    as (u0 & b & c & pw & [= <-] & _ & _ & _ & _ & _ & Hcl & Hsig & _).
  assert (Hn : claims tok !! "nbf" = None).
  { rewrite Hcl, !lookup_insert_ne by discriminate.
    apply lookup_singleton_ne. discriminate. }
  assert (He : claims tok !! "exp" = Some (JNum (now w / 1000 + 36000))).
  { rewrite Hcl. apply lookup_insert_eq. }
  assert (Hid : prop (claims tok) "id" = JStr (_id u)).
  { unfold prop. rewrite Hcl, !lookup_insert_ne by discriminate.
    rewrite lookup_singleton_eq. reflexivity. }
  destruct (Z.ltb_spec (now w' / 1000) (now w / 1000 + 36000)) as [Hlt|Hge].
  - rewrite (strategy_resolves req' tok _ (_id u) (_id u) w' Ha Hsig Hn He Hlt
               Hid Hc Hf).
    rewrite Hu. reflexivity.
  - rewrite (strategy_unfold req' tok w' Ha).
    rewrite (jwt_verify_expired tok secret _ w' secret_nonempty Hsig Hn He Hge).
    reflexivity.
Qed.

(** X7: a token is returned exactly when there is a user, the request
    carries [credentials] whose [password] is a non-empty string, and bcrypt
    accepts that string for the user's stored hash. *)
Theorem createUserToken_issues_iff
    (req : Request) (user : option User) (w : World) :
  (exists (tok : Token) (w' : World),
     createUserToken req user w = (Ok tok, w')) <->
  (exists (u : User) (b : Body) (c : gmap string jsval) (pw : string),
     user = Some u /\ body req = Some b /\ credentials b = Some c /\
     prop c "password" = JStr pw /\ pw <> "" /\
     bcrypt_compare pw (password u) = true).
Proof.
  split.
  - intros (tok & w' & H). apply createUserToken_Ok_inv in H
      as (u & b & c & pw & Hu & Hb & Hc & Hp & Hne & Hcmp & _).
    exists u, b, c, pw. repeat split; assumption.
  - intros (u & b & c & pw & -> & Hb & Hc & Hp & Hne & Hcmp).
    pose proof (createUserToken_match req b c u pw w Hb Hc Hp Hne Hcmp) as E.
    cbv zeta in E. eexists _, _. exact E.
Qed.

(** X8: a request without [body], or without [body.credentials], tells a
    known email from an unknown one: with no user found it gets the 422
    error (the request is not looked at), with a user it throws a TypeError
    that has no status code; bcrypt is not called either way. *)
Theorem createUserToken_missing_credentials
    (req : Request) (u : User) (w : World) :
  (body req = None \/ exists b : Body, body req = Some b /\ credentials b = None) ->
  createUserToken req None w = (Throw invalidCredentials, w) /\
  exists e : Error,
    createUserToken req (Some u) w = (Throw e, w) /\
    err_name e = "TypeError" /\ statusCode e = JUndefined /\
    e <> invalidCredentials.
Proof.
  intros H. split; [reflexivity|].
  destruct H as [Hb|(b & Hb & Hc)].
  - exists (TypeError "credentials").
    unfold createUserToken, orM, req_body_credentials_password. run.
    rewrite Hb. repeat split. discriminate.
  - exists (TypeError "password").
    unfold createUserToken, orM, req_body_credentials_password. run.
    rewrite Hb, Hc. repeat split. discriminate.
Qed.

(** X9: what [createUserToken], the strategy and [requireToken] answer
    depends on the request, the store and the clock only, not on the calls
    made before: there is no attempt counter and no lockout. *)
Theorem authenticator_ignores_history
    (req : Request) (user : option User) (w w' : World) :
  same_state w w' ->
  (createUserToken req user w).1 = (createUserToken req user w').1 /\
  (strategy req w).1 = (strategy req w').1 /\
  (requireToken req w).1 = (requireToken req w').1.
Proof.
  intros Hs. split; [apply history_free_createUserToken, Hs|].
  split; [apply history_free_strategy, Hs|].
  assert (Hr : history_free (requireToken req)).
  { unfold requireToken. apply history_free_bind; [apply history_free_strategy|].
    intros [?|?|?]; apply history_free_ret. }
  apply Hr, Hs.
Qed.

(** X10: two tokens issued for the same [_id] within the same second are
    the same token (nothing in it is unique to the sign-in), and tokens
    issued for different [_id]s have different claims. *)
Theorem createUserToken_token_determined
    (req1 req2 : Request) (u1 u2 : User) (w1 w2 w1' w2' : World)
    (t1 t2 : Token) :
  createUserToken req1 (Some u1) w1 = (Ok t1, w1') ->
  createUserToken req2 (Some u2) w2 = (Ok t2, w2') ->
  (_id u1 = _id u2 -> now w1 / 1000 = now w2 / 1000 -> t1 = t2) /\
  (_id u1 <> _id u2 -> claims t1 <> claims t2).
Proof.
  intros H1 H2.
  apply createUserToken_Ok_inv in H1
    as (? & ? & ? & ? & [= <-] & _ & _ & _ & _ & _ & Hc1 & Hs1 & _).
  apply createUserToken_Ok_inv in H2
    as (? & ? & ? & ? & [= <-] & _ & _ & _ & _ & _ & Hc2 & Hs2 & _).
  split.
  - intros Hid Hn. destruct t1 as [c1 s1], t2 as [c2 s2]. cbn [claims signature] in *.
    rewrite Hid, Hn in Hc1. rewrite <- Hc2 in Hc1. subst c1.
    rewrite Hs1, Hs2. reflexivity.
  - intros Hne Heq. apply Hne.
    assert (E : claims t1 !! "id" = claims t2 !! "id") by (rewrite Heq; reflexivity).
    rewrite Hc1, Hc2, !lookup_insert_ne, !lookup_singleton_eq in E
      by discriminate.
    injection E as E. exact E.
Qed.

(** *** The serialization transform *)

(** X11: the [toJSON] transform removes the [password] field and nothing
    else: every other field keeps its value, the fields of the result are
    those of the object without [password], and applying it again changes
    nothing. *)
Theorem transform_removes_only_password
    (doc : User) (user : gmap string jsval) :
  (forall k : string, k <> "password" -> transform doc user !! k = user !! k) /\
  dom (transform doc user) = dom user ∖ {["password"]} /\
  transform doc (transform doc user) = transform doc user /\
  (user !! "password" = None -> transform doc user = user).
Proof.
  unfold transform. split.
  { intros k Hk. apply lookup_delete_ne. congruence. }
  split; [apply dom_delete_L|]. split.
  { apply delete_id, lookup_delete_eq. }
  apply delete_id.
Qed.

(** *** Passwords that are not strings *)

(** A truthy password that is not a string passes the guard's second test
    and reaches [bcrypt.compareSync], which throws its own error: no status
    code is set on it. *)
Lemma createUserToken_non_string_password
    (req : Request) (b : Body) (c : gmap string jsval) (u : User) (w : World) :
  body req = Some b -> credentials b = Some c ->
  truthy (prop c "password") = true ->
  (forall s : string, prop c "password" <> JStr s) ->
  exists e : Error,
    createUserToken req (Some u) w
    = (Throw e, log (CompareSync (prop c "password") (password u)) w) /\
    err_name e = "Error" /\ statusCode e = JUndefined /\
    e <> invalidCredentials.
Proof.
  intros Hb Hc Ht Hs.
  unfold createUserToken, orM, req_body_credentials_password, user_password,
    compareSync. run. rewrite Hb, Hc. run. rewrite Ht. cbn [negb]. run.
  destruct (prop c "password") as [| |bb|n|s]; try discriminate Ht.
  - eexists. repeat split. discriminate.
  - eexists. repeat split. discriminate.
  - destruct (Hs s eq_refl).
Qed.

End Auth.

(** ** Closed instances *)

(** What the code does for [alice]: the right password gives the token, and
    the strategy resolves the token back to her until second 41000. *)
Example alice_signs_in :
  createUserToken Demo.env Demo.compare Demo.mac
    (Demo.signin (JStr "a@x.com") (JStr "secret1")) (Some Demo.alice)
    (Demo.world 5000500)
  = (Ok Demo.alice_token,
     log (Sign {[ "id" := JStr (_id Demo.alice) ]}
            "some string value only your app knows" 36000)
       (log (CompareSync (JStr "secret1") (password Demo.alice))
          (Demo.world 5000500))).
Proof. vm_compute. reflexivity. Qed.

Example alice_is_resolved :
  (strategy Demo.env Demo.mac Demo.cast (Demo.bearer Demo.alice_token)
     (Demo.world 40999999)).1 = Ok (Success Demo.alice) /\
  (strategy Demo.env Demo.mac Demo.cast (Demo.bearer Demo.alice_token)
     (Demo.world 41000000)).1 = Ok (Fail (Some TokenExpiredError)).
Proof. split; vm_compute; reflexivity. Qed.

Lemma createUserToken_strategy_roundtrip_witness :
  exists (tok : Token) (w1 : World),
    createUserToken Demo.env Demo.compare Demo.mac
      (Demo.signin (JStr "a@x.com") (JStr "secret1")) (Some Demo.alice)
      (Demo.world 5000500) = (Ok tok, w1) /\
    prop (claims tok) "id" = JStr (_id Demo.alice) /\
    (forall req' : Request, authorization req' = Some tok ->
       exists w2 : World,
         strategy Demo.env Demo.mac Demo.cast req' (Demo.world 6000000)
         = (Ok (Success Demo.alice), w2)).
Proof.
  apply (createUserToken_strategy_roundtrip Demo.env Demo.compare Demo.mac
           Demo.cast (Demo.signin (JStr "a@x.com") (JStr "secret1"))
           {| credentials :=
                Some (<["email" := JStr "a@x.com"]>
                        (<["password" := JStr "secret1"]> ∅)) |}
           (<["email" := JStr "a@x.com"]> (<["password" := JStr "secret1"]> ∅))
           Demo.alice "secret1" (Demo.world 5000500) (Demo.world 6000000)).
  - reflexivity.
  - reflexivity.
  - vm_compute. reflexivity.
  - discriminate.
  - vm_compute. reflexivity.
  - vm_compute. reflexivity.
  - vm_compute. reflexivity.
  - reflexivity.
  - vm_compute. reflexivity.
Defined.

(** C1 as stated fails for the empty password: [blank] is stored with a hash
    that matches the empty password, and signing in with her email and that
    password returns no token. *)
Lemma createUserToken_empty_password_rejected :
  Demo.store !! _id Demo.blank = Some Demo.blank /\
  Demo.compare "" (password Demo.blank) = true /\
  createUserToken Demo.env Demo.compare Demo.mac
    (Demo.signin (JStr (email Demo.blank)) (JStr "")) (Some Demo.blank)
    (Demo.world 5000500)
  = (Throw invalidCredentials, Demo.world 5000500) /\
  ~ (exists (tok : Token) (w1 : World),
       createUserToken Demo.env Demo.compare Demo.mac
         (Demo.signin (JStr (email Demo.blank)) (JStr "")) (Some Demo.blank)
         (Demo.world 5000500) = (Ok tok, w1)).
Proof.
  assert (E : createUserToken Demo.env Demo.compare Demo.mac
                (Demo.signin (JStr (email Demo.blank)) (JStr ""))
                (Some Demo.blank) (Demo.world 5000500)
              = (Throw invalidCredentials, Demo.world 5000500)).
  { vm_compute. reflexivity. }
  split; [vm_compute; reflexivity|]. split; [vm_compute; reflexivity|].
  split; [exact E|]. intros (tok & w1 & H). rewrite E in H. discriminate H.
Qed.

Lemma createUserToken_undifferentiated_error_witness :
  (createUserToken Demo.env Demo.compare Demo.mac
     (Demo.signin (JStr "nouser@x.com") (JStr "anything")) None
     (Demo.world 5000500)).1
  = (createUserToken Demo.env Demo.compare Demo.mac
       (Demo.signin (JStr "a@x.com") (JStr "wrong")) (Some Demo.alice)
       (Demo.world 5000500)).1.
Proof.
  apply (createUserToken_undifferentiated_error Demo.env Demo.compare Demo.mac
           (Demo.signin (JStr "nouser@x.com") (JStr "anything"))
           (Demo.signin (JStr "a@x.com") (JStr "wrong"))
           {| credentials :=
                Some (<["email" := JStr "a@x.com"]>
                        (<["password" := JStr "wrong"]> ∅)) |}
           (<["email" := JStr "a@x.com"]> (<["password" := JStr "wrong"]> ∅))
           Demo.alice "wrong" (Demo.world 5000500) (Demo.world 5000500)).
  - reflexivity.
  - reflexivity.
  - vm_compute. reflexivity.
  - vm_compute. reflexivity.
Defined.

(** C3: at the failing input. [alice] signs in at second 5000; her token
    expires at second 41000, which is 36000 seconds later, not 3600. *)
Theorem createUserToken_ttl_ten_hours :
  (createUserToken Demo.env Demo.compare Demo.mac
     (Demo.signin (JStr "a@x.com") (JStr "secret1")) (Some Demo.alice)
     (Demo.world 5000500)).1 = Ok Demo.alice_token /\
  claims Demo.alice_token !! "iat" = Some (JNum 5000) /\
  claims Demo.alice_token !! "exp" = Some (JNum (5000 + 36000)) /\
  claims Demo.alice_token !! "exp" <> Some (JNum (5000 + 3600)) /\
  (strategy Demo.env Demo.mac Demo.cast (Demo.bearer Demo.alice_token)
     (Demo.world ((5000 + 3600) * 1000))).1 = Ok (Success Demo.alice).
Proof.
  split; [rewrite alice_signs_in; reflexivity|].
  pose proof (createUserToken_expiry _ _ _ _ _ _ _ _ alice_signs_in) as [Hi He].
  split; [exact Hi|]. split; [exact He|]. split.
  - rewrite He. discriminate.
  - vm_compute. reflexivity.
Qed.

(** C2, at the failing input: the sign-in request carries the password 5, a
    number.  For an unknown email it is answered with the 422 error; for
    [alice]'s email the number reaches bcrypt, whose own error comes back:
    no status code, another message.  The two answers differ, which tells
    the caller that the email is known. *)
Theorem createUserToken_number_password_tells_known_email :
  (createUserToken Demo.env Demo.compare Demo.mac
     (Demo.signin (JStr "nouser@x.com") (JNum 5)) None
     (Demo.world 5000500)).1 = Throw invalidCredentials /\
  exists e : Error,
    (createUserToken Demo.env Demo.compare Demo.mac
       (Demo.signin (JStr "a@x.com") (JNum 5)) (Some Demo.alice)
       (Demo.world 5000500)).1 = Throw e /\
    statusCode e = JUndefined /\
    message e <> message invalidCredentials /\
    Throw (A:=Token) e <> Throw invalidCredentials.
Proof.
  split; [reflexivity|]. eexists. split; [vm_compute; reflexivity|].
  split; [reflexivity|]. split; discriminate.
Qed.

(** C7, at the failing input: [alice] signs in with the password [true].
    The sign-in fails, but not with the 422 error: bcrypt is called with the
    boolean and throws its own error, which has no status code and not the
    message of the guard. *)
Theorem createUserToken_boolean_password_no_422 :
  exists e : Error,
    createUserToken Demo.env Demo.compare Demo.mac
      (Demo.signin (JStr "a@x.com") (JBool true)) (Some Demo.alice)
      (Demo.world 5000500)
    = (Throw e,
       log (CompareSync (JBool true) (password Demo.alice))
         (Demo.world 5000500)) /\
    statusCode e <> JNum 422 /\
    message e <> "The provided username or password is incorrect".
Proof.
  eexists. split; [vm_compute; reflexivity|]. split; discriminate.
Qed.

(** C4 as stated fails: once [alice] is removed, her still valid token makes
    the strategy fail with no error at all attached, so with none of kind
    [UnknownSubject]; the same token at the same instant resolves while she
    is in the store. *)
Lemma strategy_removed_user_no_error_kind :
  (strategy Demo.env Demo.mac Demo.cast (Demo.bearer Demo.alice_token)
     (Demo.world 6000000)).1 = Ok (Success Demo.alice) /\
  (strategy Demo.env Demo.mac Demo.cast (Demo.bearer Demo.alice_token)
     (Demo.world_without_alice 6000000)).1 = Ok (Fail None) /\
  ~ (exists e : Error,
       carried_error
         (strategy Demo.env Demo.mac Demo.cast (Demo.bearer Demo.alice_token)
            (Demo.world_without_alice 6000000)).1 = Some e /\
       err_name e = "UnknownSubject").
Proof.
  split; [vm_compute; reflexivity|].
  assert (E : (strategy Demo.env Demo.mac Demo.cast
                 (Demo.bearer Demo.alice_token)
                 (Demo.world_without_alice 6000000)).1 = Ok (Fail None)).
  { vm_compute. reflexivity. }
  split; [exact E|]. intros (e & H & _). rewrite E in H. discriminate H.
Qed.

Lemma strategy_removed_user_fails_without_error_witness :
  (strategy Demo.env Demo.mac Demo.cast (Demo.bearer Demo.alice_token)
     (Demo.world_without_alice 6000000)).1 = Ok (Fail None) /\
  carried_error
    (strategy Demo.env Demo.mac Demo.cast (Demo.bearer Demo.alice_token)
       (Demo.world_without_alice 6000000)).1 = None /\
  (requireToken Demo.env Demo.mac Demo.cast (Demo.bearer Demo.alice_token)
     (Demo.world_without_alice 6000000)).1 = Ok Unauthorized.
Proof.
  apply (strategy_removed_user_fails_without_error Demo.env Demo.mac Demo.cast
           (Demo.bearer Demo.alice_token) Demo.alice_token 41000
           (_id Demo.alice) (_id Demo.alice)
           (Demo.world_without_alice 6000000)).
  - reflexivity.
  - vm_compute. reflexivity.
  - vm_compute. reflexivity.
  - vm_compute. reflexivity.
  - vm_compute. reflexivity.
  - vm_compute. reflexivity.
  - vm_compute. reflexivity.
  - reflexivity.
  - vm_compute. reflexivity.
Defined.

Lemma createUserToken_payload_minimal_witness :
  exists u : User,
    Some Demo.alice = Some u /\
    dom (claims Demo.alice_token) = ({["id"]} ∪ {["iat"]} ∪ {["exp"]} : gset string) /\
    claims Demo.alice_token !! "id" = Some (JStr (_id u)) /\
    claims Demo.alice_token !! "email" = None /\
    claims Demo.alice_token !! "password" = None /\
    (forall (k : string) (v : jsval),
       claims Demo.alice_token !! k = Some v ->
       (k = "id" /\ v = JStr (_id u)) \/
       (k = "iat" /\ v = JNum (now (Demo.world 5000500) / 1000)) \/
       (k = "exp" /\ v = JNum (now (Demo.world 5000500) / 1000 + 36000))).
Proof.
  apply (createUserToken_payload_minimal Demo.env Demo.compare Demo.mac
           (Demo.signin (JStr "a@x.com") (JStr "secret1")) (Some Demo.alice)
           (Demo.world 5000500)
           (log (Sign {[ "id" := JStr (_id Demo.alice) ]}
                   "some string value only your app knows" 36000)
              (log (CompareSync (JStr "secret1") (password Demo.alice))
                 (Demo.world 5000500)))
           Demo.alice_token).
  vm_compute. reflexivity.
Defined.

Lemma secret_shared_and_nonempty_witness :
  secretOrKey (opts Demo.env) = "some string value only your app knows" /\
  secret (<["JWT_SECRET" := "s3cr3t"]> Demo.env) = "s3cr3t" /\
  secret (<["JWT_SECRET" := ""]> Demo.env) = "some string value only your app knows" /\
  signature Demo.alice_token
  = Demo.mac (secretOrKey (opts Demo.env)) (claims Demo.alice_token).
Proof.
  destruct (secret_shared_and_nonempty Demo.env Demo.compare Demo.mac Demo.cast)
    as (Ho & _ & _ & _ & Hd & Hs & _).
  destruct (secret_shared_and_nonempty (<["JWT_SECRET" := "s3cr3t"]> Demo.env)
              Demo.compare Demo.mac Demo.cast) as (_ & _ & _ & He & _).
  destruct (secret_shared_and_nonempty (<["JWT_SECRET" := ""]> Demo.env)
              Demo.compare Demo.mac Demo.cast) as (_ & _ & _ & _ & Hd' & _).
  split; [rewrite Ho; apply Hd; left; reflexivity|].
  split; [apply He; [vm_compute; reflexivity|discriminate]|].
  split; [apply Hd'; right; vm_compute; reflexivity|].
  apply (Hs (Demo.signin (JStr "a@x.com") (JStr "secret1")) (Some Demo.alice)
           (Demo.world 5000500)
           (log (Sign {[ "id" := JStr (_id Demo.alice) ]}
                   "some string value only your app knows" 36000)
              (log (CompareSync (JStr "secret1") (password Demo.alice))
                 (Demo.world 5000500)))).
  vm_compute. reflexivity.
Defined.

Lemma createUserToken_credential_failure_422_witness :
  (createUserToken Demo.env Demo.compare Demo.mac
     (Demo.signin (JStr "a@x.com") (JStr "wrong")) (Some Demo.alice)
     (Demo.world 5000500)).1 = Throw invalidCredentials /\
  statusCode invalidCredentials = JNum 422 /\
  message invalidCredentials = "The provided username or password is incorrect" /\
  err_name invalidCredentials = "Error".
Proof.
  apply (createUserToken_credential_failure_422 Demo.env Demo.compare Demo.mac
           (Demo.signin (JStr "a@x.com") (JStr "wrong")) (Some Demo.alice)
           (Demo.world 5000500)).
  right.
  exists {| credentials :=
              Some (<["email" := JStr "a@x.com"]>
                      (<["password" := JStr "wrong"]> ∅)) |},
    (<["email" := JStr "a@x.com"]> (<["password" := JStr "wrong"]> ∅)).
  split; [reflexivity|]. split; [reflexivity|]. right.
  exists "wrong", Demo.alice.
  split; [vm_compute; reflexivity|]. split; [reflexivity|].
  vm_compute. reflexivity.
Defined.

Lemma createUserToken_falsy_password_no_compare_witness :
  Demo.compare "" (password Demo.blank) = true /\
  createUserToken Demo.env Demo.compare Demo.mac
    (Demo.signin (JStr "b@x.com") (JStr "")) (Some Demo.blank)
    (Demo.world 5000500) = (Throw invalidCredentials, Demo.world 5000500) /\
  statusCode invalidCredentials = JNum 422 /\
  calls (createUserToken Demo.env Demo.compare Demo.mac
           (Demo.signin (JStr "b@x.com") (JStr "")) (Some Demo.blank)
           (Demo.world 5000500)).2 = calls (Demo.world 5000500) /\
  (forall (data : jsval) (hash : string),
     CompareSync data hash
     ∉ drop (length (calls (Demo.world 5000500)))
         (calls (createUserToken Demo.env Demo.compare Demo.mac
                   (Demo.signin (JStr "b@x.com") (JStr "")) (Some Demo.blank)
                   (Demo.world 5000500)).2)).
Proof.
  split; [vm_compute; reflexivity|].
  apply (createUserToken_falsy_password_no_compare Demo.env Demo.compare
           Demo.mac (Demo.signin (JStr "b@x.com") (JStr ""))
           {| credentials :=
                Some (<["email" := JStr "b@x.com"]>
                        (<["password" := JStr ""]> ∅)) |}
           (<["email" := JStr "b@x.com"]> (<["password" := JStr ""]> ∅))
           (Some Demo.blank) (Demo.world 5000500)).
  - reflexivity.
  - reflexivity.
  - vm_compute. reflexivity.
Defined.

(** *** Instances of the further properties *)

Lemma strategy_rejects_expired_token_witness :
  strategy Demo.env Demo.mac Demo.cast (Demo.bearer Demo.alice_token)
    (Demo.world 41000000)
  = (Ok (Fail (Some TokenExpiredError)),
     log (Verify Demo.alice_token (secret Demo.env)) (Demo.world 41000000)) /\
  requireToken Demo.env Demo.mac Demo.cast (Demo.bearer Demo.alice_token)
    (Demo.world 41000000)
  = (Ok Unauthorized,
     log (Verify Demo.alice_token (secret Demo.env)) (Demo.world 41000000)).
Proof.
  apply (strategy_rejects_expired_token Demo.env Demo.mac Demo.cast
           (Demo.bearer Demo.alice_token) Demo.alice_token 41000
           (Demo.world 41000000)).
  - reflexivity.
  - vm_compute. reflexivity.
  - vm_compute. reflexivity.
  - vm_compute. reflexivity.
  - vm_compute. discriminate.
Defined.

Lemma strategy_rejects_bad_signature_witness :
  exists jwt_err : Error,
    err_name jwt_err = "JsonWebTokenError" /\
    strategy Demo.env Demo.mac Demo.cast (Demo.bearer Demo.forged_token)
      (Demo.world 6000000)
    = (Ok (Fail (Some jwt_err)),
       log (Verify Demo.forged_token (secret Demo.env)) (Demo.world 6000000)) /\
    requireToken Demo.env Demo.mac Demo.cast (Demo.bearer Demo.forged_token)
      (Demo.world 6000000)
    = (Ok Unauthorized,
       log (Verify Demo.forged_token (secret Demo.env)) (Demo.world 6000000)).
Proof.
  apply (strategy_rejects_bad_signature Demo.env Demo.mac Demo.cast
           (Demo.bearer Demo.forged_token) Demo.forged_token
           (Demo.world 6000000)).
  - reflexivity.
  - vm_compute. discriminate.
Defined.

Lemma strategy_store_rejection_is_an_error_witness :
  (strategy Demo.env Demo.mac Demo.cast (Demo.bearer Demo.alice_token)
     (Demo.world_down 6000000)).1 = Ok (Errored Demo.store_down) /\
  (requireToken Demo.env Demo.mac Demo.cast (Demo.bearer Demo.alice_token)
     (Demo.world_down 6000000)).1 = Ok (NextError Demo.store_down).
Proof.
  apply (strategy_store_rejection_is_an_error Demo.env Demo.mac Demo.cast
           (Demo.bearer Demo.alice_token) Demo.alice_token 41000
           (_id Demo.alice) Demo.store_down (Demo.world_down 6000000)).
  - reflexivity.
  - vm_compute. reflexivity.
  - vm_compute. reflexivity.
  - vm_compute. reflexivity.
  - vm_compute. reflexivity.
  - vm_compute. reflexivity.
  - reflexivity.
Defined.

Lemma requireToken_next_is_sound_witness :
  exists (t : Token) (k : string),
    authorization (Demo.bearer Demo.alice_token) = Some t /\
    signature t = Demo.mac (secret Demo.env) (claims t) /\
    (forall e : Z, claims t !! "exp" = Some (JNum e) ->
                   now (Demo.world 6000000) / 1000 < e) /\
    Demo.cast (prop (claims t) "id") = Some k /\
    storeFault (Demo.world 6000000) = None /\
    users (Demo.world 6000000) !! k = Some Demo.alice.
Proof.
  apply (requireToken_next_is_sound Demo.env Demo.mac Demo.cast
           (Demo.bearer Demo.alice_token) Demo.alice (Demo.world 6000000)).
  vm_compute. reflexivity.
Defined.

Lemma issued_token_lifetime_witness :
  (strategy Demo.env Demo.mac Demo.cast (Demo.bearer Demo.alice_token)
     (Demo.world_changed 40999999)).1 = Ok (Success Demo.alice_changed) /\
  (strategy Demo.env Demo.mac Demo.cast (Demo.bearer Demo.alice_token)
     (Demo.world_changed 41000000)).1 = Ok (Fail (Some TokenExpiredError)).
Proof.
  split.
  - apply (issued_token_lifetime Demo.env Demo.compare Demo.mac Demo.cast
             (Demo.signin (JStr "a@x.com") (JStr "secret1"))
             (Demo.bearer Demo.alice_token) Demo.alice Demo.alice_changed
             Demo.alice_token (Demo.world 5000500)
             (log (Sign {[ "id" := JStr (_id Demo.alice) ]}
                     "some string value only your app knows" 36000)
                (log (CompareSync (JStr "secret1") (password Demo.alice))
                   (Demo.world 5000500)))
             (Demo.world_changed 40999999)).
    + vm_compute. reflexivity.
    + reflexivity.
    + vm_compute. reflexivity.
    + reflexivity.
    + vm_compute. reflexivity.
  - apply (issued_token_lifetime Demo.env Demo.compare Demo.mac Demo.cast
             (Demo.signin (JStr "a@x.com") (JStr "secret1"))
             (Demo.bearer Demo.alice_token) Demo.alice Demo.alice_changed
             Demo.alice_token (Demo.world 5000500)
             (log (Sign {[ "id" := JStr (_id Demo.alice) ]}
                     "some string value only your app knows" 36000)
                (log (CompareSync (JStr "secret1") (password Demo.alice))
                   (Demo.world 5000500)))
             (Demo.world_changed 41000000)).
    + vm_compute. reflexivity.
    + reflexivity.
    + vm_compute. reflexivity.
    + reflexivity.
    + vm_compute. reflexivity.
Defined.

Lemma createUserToken_issues_iff_witness :
  exists (tok : Token) (w' : World),
    createUserToken Demo.env Demo.compare Demo.mac
      (Demo.signin (JStr "a@x.com") (JStr "secret1")) (Some Demo.alice)
      (Demo.world 5000500) = (Ok tok, w').
Proof.
  apply (createUserToken_issues_iff Demo.env Demo.compare Demo.mac
           (Demo.signin (JStr "a@x.com") (JStr "secret1")) (Some Demo.alice)
           (Demo.world 5000500)).
  exists Demo.alice,
    {| credentials :=
         Some (<["email" := JStr "a@x.com"]>
                 (<["password" := JStr "secret1"]> ∅)) |},
    (<["email" := JStr "a@x.com"]> (<["password" := JStr "secret1"]> ∅)),
    "secret1".
  split; [reflexivity|]. split; [reflexivity|]. split; [reflexivity|].
  split; [vm_compute; reflexivity|]. split; [discriminate|].
  vm_compute. reflexivity.
Defined.

Lemma createUserToken_missing_credentials_witness :
  createUserToken Demo.env Demo.compare Demo.mac
    (Demo.bearer Demo.alice_token) None (Demo.world 5000500)
  = (Throw invalidCredentials, Demo.world 5000500) /\
  exists e : Error,
    createUserToken Demo.env Demo.compare Demo.mac
      (Demo.bearer Demo.alice_token) (Some Demo.alice) (Demo.world 5000500)
    = (Throw e, Demo.world 5000500) /\
    err_name e = "TypeError" /\ statusCode e = JUndefined /\
    e <> invalidCredentials.
Proof.
  apply (createUserToken_missing_credentials Demo.env Demo.compare Demo.mac
           (Demo.bearer Demo.alice_token) Demo.alice (Demo.world 5000500)).
  left. reflexivity.
Defined.

Lemma authenticator_ignores_history_witness :
  (createUserToken Demo.env Demo.compare Demo.mac
     (Demo.signin (JStr "a@x.com") (JStr "wrong")) (Some Demo.alice)
     (Demo.world 5000500)).1
  = (createUserToken Demo.env Demo.compare Demo.mac
       (Demo.signin (JStr "a@x.com") (JStr "wrong")) (Some Demo.alice)
       (log (CompareSync (JStr "wrong") (password Demo.alice))
          (Demo.world 5000500))).1 /\
  (strategy Demo.env Demo.mac Demo.cast
     (Demo.signin (JStr "a@x.com") (JStr "wrong")) (Demo.world 5000500)).1
  = (strategy Demo.env Demo.mac Demo.cast
       (Demo.signin (JStr "a@x.com") (JStr "wrong"))
       (log (CompareSync (JStr "wrong") (password Demo.alice))
          (Demo.world 5000500))).1 /\
  (requireToken Demo.env Demo.mac Demo.cast
     (Demo.signin (JStr "a@x.com") (JStr "wrong")) (Demo.world 5000500)).1
  = (requireToken Demo.env Demo.mac Demo.cast
       (Demo.signin (JStr "a@x.com") (JStr "wrong"))
       (log (CompareSync (JStr "wrong") (password Demo.alice))
          (Demo.world 5000500))).1.
Proof.
  apply (authenticator_ignores_history Demo.env Demo.compare Demo.mac Demo.cast
           (Demo.signin (JStr "a@x.com") (JStr "wrong")) (Some Demo.alice)
           (Demo.world 5000500)
           (log (CompareSync (JStr "wrong") (password Demo.alice))
              (Demo.world 5000500))).
  repeat split.
Defined.

Lemma createUserToken_token_determined_witness :
  (_id Demo.alice = _id Demo.alice ->
   now (Demo.world 5000500) / 1000 = now (Demo.world 5000999) / 1000 ->
   Demo.alice_token = Demo.alice_token) /\
  (_id Demo.alice <> _id Demo.alice ->
   claims Demo.alice_token <> claims Demo.alice_token).
Proof.
  apply (createUserToken_token_determined Demo.env Demo.compare Demo.mac
           (Demo.signin (JStr "a@x.com") (JStr "secret1"))
           (Demo.signin (JStr "a@x.com") (JStr "secret1"))
           Demo.alice Demo.alice (Demo.world 5000500) (Demo.world 5000999)
           (log (Sign {[ "id" := JStr (_id Demo.alice) ]}
                   "some string value only your app knows" 36000)
              (log (CompareSync (JStr "secret1") (password Demo.alice))
                 (Demo.world 5000500)))
           (log (Sign {[ "id" := JStr (_id Demo.alice) ]}
                   "some string value only your app knows" 36000)
              (log (CompareSync (JStr "secret1") (password Demo.alice))
                 (Demo.world 5000999)))
           Demo.alice_token Demo.alice_token).
  - vm_compute. reflexivity.
  - vm_compute. reflexivity.
Defined.

Lemma transform_removes_only_password_witness :
  transform Demo.alice (toObject Demo.alice) !! "email" = Some (JStr "a@x.com") /\
  transform Demo.alice (toObject Demo.alice) !! "_id"
  = Some (JStr "64b7f0c2a1d3e4f5a6b7c8d9").
Proof.
  destruct (transform_removes_only_password Demo.alice (toObject Demo.alice))
    as (Hk & _).
  split.
  - rewrite Hk; [vm_compute; reflexivity|discriminate].
  - rewrite Hk; [vm_compute; reflexivity|discriminate].
Defined.
